(** * SageMaker inference handlers for the NVIDIA SSD model

    Verification of the two handler scripts of [Pytorch BYOM from NGC]:

    - [transform_script.py]      (model loaded from a local weights file)
    - [transform_script_hub.py]  (model fetched from the torch hub)

    Each script defines [model_fn] and [input_fn].  The scripts are glue
    over PyTorch ([torch.load], [torch.hub.load]), [os.path.join] and
    [six.BytesIO]; those library calls are taken as an interface
    ([Framework]) and every statement below holds for all its
    implementations.  A small reference implementation, [Ref], is used
    only to run the handlers on concrete inputs. *)

From Stdlib Require Import Strings.String Strings.Ascii Strings.Byte.
From Stdlib Require Import List Bool.
Import ListNotations.
Local Open Scope string_scope.
Local Open Scope list_scope.

(** ** Python values, exceptions and framework requests *)

(** Python [bytes]. *)
Definition bytes := list byte.

(** A [six.BytesIO] object: the buffer and the read position. *)
Record buffer : Type := mk_buffer { buf_data : bytes; buf_pos : nat }.

(** [BytesIO(b)]: a fresh in-memory stream over [b], positioned at 0. *)
Definition BytesIO (b : bytes) : buffer := mk_buffer b 0.

(** The argument of [torch.load]: a path or a file-like object. *)
Inductive load_source : Type :=
| FromPath (path : string)
| FromBuffer (f : buffer).

(** Keyword arguments of a call, in the order written. *)
Definition kwargs := list (string * string).

(** The exception classes the handlers can meet. *)
Inductive exn : Type :=
| SyntaxError
| FileNotFoundError
| UnpicklingError
| HubFetchError
| DeviceUnavailableError.

(** What a handler hands back: [None], or an object built by the
    framework (a model, a tensor). *)
Inductive value (Obj : Type) : Type :=
| VNone
| VObj (o : Obj).
Arguments VNone {Obj}.
Arguments VObj {Obj} o.

(** The framework calls a handler can issue. *)
Inductive call : Type :=
| TorchLoad (src : load_source)
| TorchHubLoad (repo model : string) (kw : kwargs).

(** ** The part of Python's tokenizer that tracks brackets

    A source text compiles only if every bracket opened outside string
    literals and comments is closed again before the end of the text.
    Inside an open bracket the tokenizer does not end the logical line at
    a newline, so an unclosed bracket swallows the rest of the file. *)

Inductive lex_mode : Type :=
| Code
| Comment
| Str (q : ascii)
| Triple (q : ascii).

Definition newline : ascii := "010"%char.
Definition dquote : ascii := "034"%char.
Definition squote : ascii := "039"%char.
Definition backslash : ascii := "092"%char.

Definition is_quote (c : ascii) : bool :=
  Ascii.eqb c squote || Ascii.eqb c dquote.

Definition is_open (c : ascii) : bool :=
  Ascii.eqb c "(" || Ascii.eqb c "[" || Ascii.eqb c "{".

Definition is_close (c : ascii) : bool :=
  Ascii.eqb c ")" || Ascii.eqb c "]" || Ascii.eqb c "}".

Definition closes (o c : ascii) : bool :=
  (Ascii.eqb o "(" && Ascii.eqb c ")")
  || (Ascii.eqb o "[" && Ascii.eqb c "]")
  || (Ascii.eqb o "{" && Ascii.eqb c "}").

(** [scan m line stk s]: read [s] in mode [m], at line [line], with the
    brackets [stk] open (each with the line it was opened on).  [None] is
    a lexical error (a stray closer, an unterminated string); [Some stk']
    gives the brackets still open at the end of the text. *)
Fixpoint scan (m : lex_mode) (line : nat) (stk : list (ascii * nat))
         (s : list ascii) {struct s} : option (list (ascii * nat)) :=
  match s with
  | [] =>
      match m with
      | Code | Comment => Some stk
      | Str _ | Triple _ => None
      end
  | c :: s1 =>
      let line1 := if Ascii.eqb c newline then S line else line in
      match m with
      | Code =>
          if is_quote c then
            match s1 with
            | c1 :: c2 :: s3 =>
                if Ascii.eqb c1 c && Ascii.eqb c2 c
                then scan (Triple c) line stk s3
                else scan (Str c) line stk s1
            | _ => scan (Str c) line stk s1
            end
          else if Ascii.eqb c "#" then scan Comment line stk s1
          else if is_open c then scan Code line ((c, line) :: stk) s1
          else if is_close c then
            match stk with
            | (o, _) :: stk' =>
                if closes o c then scan Code line stk' s1 else None
            | [] => None
            end
          else scan Code line1 stk s1
      | Comment =>
          if Ascii.eqb c newline then scan Code line1 stk s1
          else scan Comment line stk s1
      | Str q =>
          if Ascii.eqb c backslash then
            match s1 with
            | c' :: s2 =>
                scan (Str q) (if Ascii.eqb c' newline then S line else line)
                     stk s2
            | [] => None
            end
          else if Ascii.eqb c q then scan Code line stk s1
          else if Ascii.eqb c newline then None
          else scan (Str q) line stk s1
      | Triple q =>
          if Ascii.eqb c backslash then
            match s1 with
            | c' :: s2 =>
                scan (Triple q) (if Ascii.eqb c' newline then S line else line)
                     stk s2
            | [] => None
            end
          else
            match s1 with
            | c1 :: c2 :: s3 =>
                if Ascii.eqb c q && Ascii.eqb c1 q && Ascii.eqb c2 q
                then scan Code line stk s3
                else scan (Triple q) line1 stk s1
            | _ => scan (Triple q) line1 stk s1
            end
      end
  end.

(** The text of a file given as its lines, each ended by a newline. *)
Fixpoint text_of_lines (ls : list string) : list ascii :=
  match ls with
  | [] => []
  | l :: ls' => list_ascii_of_string l ++ newline :: text_of_lines ls'
  end.

(** The brackets left open by the lines [ls], where the first of them is
    line [first] of its file. *)
Definition open_brackets (first : nat) (ls : list string)
  : option (list (ascii * nat)) :=
  scan Code first [] (text_of_lines ls).

(** Whether the tokenizer accepts the lines. *)
Definition compiles (ls : list string) : bool :=
  match open_brackets 1 ls with
  | Some [] => true
  | _ => false
  end.

(** Line [n] of [ls] with [suffix] appended. *)
Fixpoint append_to_line (n : nat) (suffix : string) (ls : list string)
  : list string :=
  match ls, n with
  | [], _ => []
  | l :: ls', 1 => String.append l suffix :: ls'
  | l :: ls', _ => l :: append_to_line (n - 1) suffix ls'
  end.

(** ** The source texts *)

Module Source.

(** The three double quotes that open and close a docstring. *)
Definition docstring_quotes : string :=
  String dquote (String dquote (String dquote EmptyString)).

(** [transform_script.py], line by line. *)
Definition transform_script : list string :=
  [ "";
    "import torch";
    "import os";
    "from six import BytesIO";
    "import numpy as np";
    "";
    "def model_fn(model_dir):";
    "    model = torch.load(os.path.join(model_dir, 'nvidia_ssdpyt_fp32_190826.pt')";
    "    return model";
    "                       ";
    "def input_fn(request_body, request_content_type):";
    String.append "    " (String.append docstring_quotes
      (String.append "An input_fn that loads a pickled tensor"
         docstring_quotes));
    "    if request_content_type == 'application/python-pickle':";
    "        return torch.load(BytesIO(request_body))";
    "    else:";
    "        # Handle other content-types here or raise an Exception";
    "        # if the content type is not supported.";
    "        pass" ].

(** [transform_script_hub.py], line by line. *)
Definition transform_script_hub : list string :=
  [ "";
    "import torch";
    "import os";
    "from six import BytesIO";
    "import numpy as np";
    "";
    "def model_fn(model_dir):";
    "    model = torch.hub.load('NVIDIA/DeepLearningExamples:torchhub', 'nvidia_ssd', model_math='fp32',map_location='gpu')";
    "    return model";
    "                       ";
    "def input_fn(request_body, request_content_type):";
    "    return torch.load(BytesIO(request_body))" ].

End Source.

(** ** Handler computations

    A handler runs against the world outside the process (the file system,
    the hub, the devices).  A computation takes the world, returns a value
    or raises, leaves a world behind, and records the framework calls it
    made, in order. *)

Section Computations.

Context {World : Type}.

Definition Py (A : Type) : Type := World -> (exn + A) * World * list call.

Definition ret {A} (a : A) : Py A := fun w => (inr a, w, []).

Definition raise {A} (e : exn) : Py A := fun w => (inl e, w, []).

Definition bind {A B} (m : Py A) (k : A -> Py B) : Py B :=
  fun w =>
    match m w with
    | (inl e, w1, t1) => (inl e, w1, t1)
    | (inr a, w1, t1) =>
        match k a w1 with
        | (r, w2, t2) => (r, w2, t1 ++ t2)
        end
    end.

(** A framework call: its outcome comes from the framework, and the call
    is recorded. *)
Definition perform {A} (c : call) (f : World -> (exn + A) * World) : Py A :=
  fun w => match f w with (r, w1) => (r, w1, [c]) end.

(** A [def] of a script whose text is [src].  Python compiles the whole
    script before it runs any of it: calling the function runs [body] if
    the script compiles, and no function exists otherwise. *)
Definition pydef {A} (src : list string) (body : Py A) : Py A :=
  if compiles src then body else raise SyntaxError.

(** The compile step of importing a script whose text is [src]: a text
    the tokenizer rejects raises [SyntaxError] before any statement of the
    script runs.  The run of the top-level statements of an accepted text
    is not described here, and nothing below relies on it. *)
Definition import_script (src : list string) : Py unit :=
  if compiles src then ret tt else raise SyntaxError.

Definition result_of {A} (o : (exn + A) * World * list call) : exn + A :=
  fst (fst o).

Definition world_of {A} (o : (exn + A) * World * list call) : World :=
  snd (fst o).

Definition trace_of {A} (o : (exn + A) * World * list call) : list call :=
  snd o.

End Computations.

Arguments Py World A : clear implicits.

Declare Scope py_scope.
Delimit Scope py_scope with py.
Notation "x <- m ;; k" := (bind m (fun x => k))
  (at level 61, m at next level, right associativity) : py_scope.

(** ** The framework interface

    [torch.load], [torch.hub.load] and [os.path.join], as the handlers use
    them.  The first two act on the world and may raise. *)
Class Framework (World Obj : Type) : Type := {
  fw_torch_load :
    load_source -> World -> (exn + value Obj) * World;
  fw_torch_hub_load :
    string -> string -> kwargs -> World -> (exn + value Obj) * World;
  os_path_join : string -> string -> string
}.

Section FrameworkCalls.

Context {World Obj : Type} `{FW : Framework World Obj}.

(** [torch.load(f)] *)
Definition torch_load (src : load_source) : Py World (value Obj) :=
  perform (TorchLoad src) (fw_torch_load src).

(** [torch.hub.load(repo, model, **kw)] *)
Definition torch_hub_load (repo model : string) (kw : kwargs)
  : Py World (value Obj) :=
  perform (TorchHubLoad repo model kw) (fw_torch_hub_load repo model kw).

End FrameworkCalls.

(** ** transform_script.py *)
Module TransformScript.
Section Script.

Context {World Obj : Type} `{FW : Framework World Obj}.
Local Open Scope py_scope.

Definition weights_file : string := "nvidia_ssdpyt_fp32_190826.pt".

Definition pickle_content_type : string := "application/python-pickle".

(** Lines 7 to 9, in a script with text [script].  The body is the
    reading of lines 8 and 9 with the call to [torch.load] closed. *)
Definition model_fn_in (script : list string) (model_dir : string)
  : Py World (value Obj) :=
  pydef script
    (model <- torch_load (FromPath (os_path_join model_dir weights_file)) ;;
     ret model).

(** [model_fn], in the text as it stands, which leaves the call open. *)
Definition model_fn (model_dir : string) : Py World (value Obj) :=
  model_fn_in Source.transform_script model_dir.

(** Lines 11 to 18, in a script with text [script].  Falling off the end
    of the [else] branch returns [None]. *)
Definition input_fn_in (script : list string) (request_body : bytes)
           (request_content_type : string) : Py World (value Obj) :=
  pydef script
    (if String.eqb request_content_type pickle_content_type
     then torch_load (FromBuffer (BytesIO request_body))
     else ret VNone).

(** [input_fn], in the text as it stands: the same file as [model_fn],
    with line 8 left open. *)
Definition input_fn (request_body : bytes) (request_content_type : string)
  : Py World (value Obj) :=
  input_fn_in Source.transform_script request_body request_content_type.

(** What the hosting runtime does to reach [model_fn]: import the script,
    then call. *)
Definition serve_model_fn (model_dir : string) : Py World (value Obj) :=
  _ <- import_script Source.transform_script ;; model_fn model_dir.

(** The same for [input_fn]. *)
Definition serve_input_fn (request_body : bytes)
           (request_content_type : string) : Py World (value Obj) :=
  _ <- import_script Source.transform_script ;;
  input_fn request_body request_content_type.

End Script.
End TransformScript.

(** ** transform_script_hub.py *)
Module TransformScriptHub.
Section Script.

Context {World Obj : Type} `{FW : Framework World Obj}.
Local Open Scope py_scope.

Definition hub_repo : string := "NVIDIA/DeepLearningExamples:torchhub".

Definition hub_model : string := "nvidia_ssd".

Definition hub_kwargs : kwargs :=
  [("model_math", "fp32"); ("map_location", "gpu")].

(** Lines 7 to 9. *)
Definition model_fn (model_dir : string) : Py World (value Obj) :=
  pydef Source.transform_script_hub
    (model <- torch_hub_load hub_repo hub_model hub_kwargs ;;
     ret model).

(** Lines 11 and 12. *)
Definition input_fn (request_body : bytes) (request_content_type : string)
  : Py World (value Obj) :=
  pydef Source.transform_script_hub
    (torch_load (FromBuffer (BytesIO request_body))).

End Script.
End TransformScriptHub.

(** ** A reference framework

    A small world to run the handlers in: files are byte strings, an
    object is the byte string after the pickle protocol marker, the hub
    lists the models it serves and the machine lists its devices.  None of
    its calls changes the world. *)
Module Ref.

Record world : Type := mk_world {
  files : list (string * bytes);
  hub_online : bool;
  hub_models : list (string * string);
  devices : list string
}.

Definition obj := bytes.

Definition pickle_marker : byte := x80.

(** Serialize an object. *)
Definition dumps (o : obj) : bytes := pickle_marker :: o.

(** Deserialize a byte string. *)
Definition loads (b : bytes) : exn + value obj :=
  match b with
  | m :: o => if Byte.eqb m pickle_marker then inr (VObj o)
              else inl UnpicklingError
  | [] => inl UnpicklingError
  end.

Fixpoint lookup {A} (k : string) (l : list (string * A)) : option A :=
  match l with
  | [] => None
  | (k', a) :: l' => if String.eqb k k' then Some a else lookup k l'
  end.

Definition serves (repo model : string) (l : list (string * string)) : bool :=
  existsb (fun rm => String.eqb repo (fst rm) && String.eqb model (snd rm)) l.

Definition load (src : load_source) (w : world) : (exn + value obj) * world :=
  match src with
  | FromPath p =>
      match lookup p (files w) with
      | Some b => (loads b, w)
      | None => (inl FileNotFoundError, w)
      end
  | FromBuffer f => (loads (skipn (buf_pos f) (buf_data f)), w)
  end.

Definition hub_load (repo model : string) (kw : kwargs) (w : world)
  : (exn + value obj) * world :=
  if hub_online w && serves repo model (hub_models w) then
    match lookup "map_location" kw with
    | Some d =>
        if existsb (String.eqb d) (devices w)
        then (inr (VObj (list_byte_of_string model)), w)
        else (inl DeviceUnavailableError, w)
    | None => (inr (VObj (list_byte_of_string model)), w)
    end
  else (inl HubFetchError, w).

(** POSIX [os.path.join] of two components. *)
Definition join (a b : string) : string :=
  if String.prefix "/" b then b
  else if String.eqb a "" then b
  else if String.eqb (String.substring (String.length a - 1) 1 a) "/"
       then String.append a b
       else String.append a (String.append "/" b).

#[export] Instance framework : Framework world obj := {
  fw_torch_load := load;
  fw_torch_hub_load := hub_load;
  os_path_join := join
}.

(** A machine with the weights file in place, the hub reachable and a
    device called gpu. *)
Definition ready : world :=
  mk_world
    [("/opt/ml/model/nvidia_ssdpyt_fp32_190826.pt",
      dumps (list_byte_of_string "ssd300"))]
    true
    [("NVIDIA/DeepLearningExamples:torchhub", "nvidia_ssd")]
    ["cpu"; "gpu"].

(** A machine with no weights file and no device called gpu. *)
Definition bare : world :=
  mk_world [] true
    [("NVIDIA/DeepLearningExamples:torchhub", "nvidia_ssd")]
    ["cpu"].

End Ref.

(** * Properties *)

(** ** What the tokenizer says about the two scripts *)

Lemma local_script_open_bracket :
  open_brackets 1 Source.transform_script = Some [("("%char, 8)].
Proof. vm_compute. reflexivity. Qed.

Lemma local_script_rejected : compiles Source.transform_script = false.
Proof. vm_compute. reflexivity. Qed.

(** The local script is one closing parenthesis short, on line 8. *)
Lemma local_script_one_parenthesis_short :
  compiles (append_to_line 8 ")" Source.transform_script) = true.
Proof. vm_compute. reflexivity. Qed.

Lemma hub_script_accepted : compiles Source.transform_script_hub = true.
Proof. vm_compute. reflexivity. Qed.

(** ** Computations *)

Section ComputationFacts.

Context {World : Type}.
Local Open Scope py_scope.

Lemma pydef_accepted {A} (src : list string) (body : Py World A) :
  compiles src = true -> pydef src body = body.
Proof. intros H. unfold pydef. rewrite H. reflexivity. Qed.

Lemma pydef_rejected {A} (src : list string) (body : Py World A) (w : World) :
  compiles src = false -> pydef src body w = (inl SyntaxError, w, []).
Proof. intros H. unfold pydef. rewrite H. reflexivity. Qed.

(** Binding the result of a call to a name and returning it is the call. *)
Lemma perform_then_ret {A} (c : call) (f : World -> (exn + A) * World)
      (w : World) :
  (x <- perform c f ;; ret x) w = perform c f w.
Proof.
  unfold bind, perform, ret.
  destruct (f w) as [[e | a] w1]; reflexivity.
Qed.

Lemma perform_outcome {A} (c : call) (f : World -> (exn + A) * World)
      (w : World) :
  perform c f w = (fst (f w), snd (f w), [c]).
Proof. unfold perform. destruct (f w); reflexivity. Qed.

End ComputationFacts.

(** ** The handlers, for every framework *)

Section HandlerFacts.

Context {World Obj : Type} `{FW : Framework World Obj}.

(** *** transform_script.py *)

Lemma local_model_fn_raises (model_dir : string) (w : World) :
  TransformScript.model_fn model_dir w = (inl SyntaxError, w, []).
Proof.
  unfold TransformScript.model_fn, TransformScript.model_fn_in.
  apply pydef_rejected, local_script_rejected.
Qed.

(** With the parenthesis of line 8 closed, the same [def] loads the fixed
    file name under the given directory with [torch.load], once, and its
    outcome, model or error, is that of [torch.load]. *)
Lemma local_model_fn_repaired (model_dir : string) (w : World) :
  TransformScript.model_fn_in (append_to_line 8 ")" Source.transform_script)
    model_dir w
  = (fst (fw_torch_load
            (FromPath (os_path_join model_dir "nvidia_ssdpyt_fp32_190826.pt"))
            w),
     snd (fw_torch_load
            (FromPath (os_path_join model_dir "nvidia_ssdpyt_fp32_190826.pt"))
            w),
     [TorchLoad
        (FromPath (os_path_join model_dir "nvidia_ssdpyt_fp32_190826.pt"))]).
Proof.
  unfold TransformScript.model_fn_in.
  rewrite (pydef_accepted _ _ local_script_one_parenthesis_short).
  unfold torch_load. rewrite perform_then_ret. apply perform_outcome.
Qed.

(** [input_fn] stands in the same file as [model_fn]: line 8 leaves the
    script uncompiled, so no [input_fn] exists to run. *)
Lemma local_input_fn_raises (request_body : bytes) (ct : string) (w : World) :
  TransformScript.input_fn request_body ct w = (inl SyntaxError, w, []).
Proof.
  unfold TransformScript.input_fn, TransformScript.input_fn_in.
  apply pydef_rejected, local_script_rejected.
Qed.

(** With the parenthesis of line 8 closed, lines 11 to 18 do what they
    say: on the recognized content type one [torch.load] on the request
    body, whose outcome is returned; on any other, [None] and no call. *)
Lemma local_input_fn_repaired (request_body : bytes) (ct : string)
      (w : World) :
  TransformScript.input_fn_in (append_to_line 8 ")" Source.transform_script)
    request_body ct w
  = if String.eqb ct "application/python-pickle"
    then (fst (fw_torch_load (FromBuffer (BytesIO request_body)) w),
          snd (fw_torch_load (FromBuffer (BytesIO request_body)) w),
          [TorchLoad (FromBuffer (BytesIO request_body))])
    else (inr VNone, w, []).
Proof.
  unfold TransformScript.input_fn_in.
  rewrite (pydef_accepted _ _ local_script_one_parenthesis_short).
  unfold TransformScript.pickle_content_type.
  destruct (String.eqb ct "application/python-pickle").
  - unfold torch_load. apply perform_outcome.
  - reflexivity.
Qed.

Lemma local_serve_input_fn_raises (request_body : bytes) (ct : string)
      (w : World) :
  TransformScript.serve_input_fn request_body ct w
  = (inl SyntaxError, w, []).
Proof.
  unfold TransformScript.serve_input_fn, bind, import_script.
  rewrite local_script_rejected. reflexivity.
Qed.

(** C2, on the code as it stands.  Called with the content type
    'application/python-pickle', [input_fn] of transform_script.py does not
    deserialize the request body: for every body and world, and whatever
    the framework would make of the bytes, it raises [SyntaxError], makes
    no framework call and returns no value. *)
Theorem C2_local_input_fn_pickle_raises_syntax_error
        (request_body : bytes) (w : World) :
  TransformScript.input_fn request_body "application/python-pickle" w
  = (inl SyntaxError, w, [])
  /\ forall (v : value Obj) (w' : World) (calls : list call),
      TransformScript.input_fn request_body "application/python-pickle" w
      <> (inr v, w', calls).
Proof.
  rewrite local_input_fn_raises. split; [reflexivity | ].
  intros v w' calls. discriminate.
Qed.

(** C3, on the code as it stands.  Whatever the serializer, for every
    tensor and world, [input_fn] of transform_script.py handed the
    serialized tensor with content type 'application/python-pickle' raises
    [SyntaxError] without a framework call: no tensor comes back, equal to
    the original or not. *)
Theorem C3_local_input_fn_round_trip_raises_syntax_error
        (torch_save : Obj -> bytes) (t : Obj) (w : World) :
  TransformScript.input_fn (torch_save t) "application/python-pickle" w
  = (inl SyntaxError, w, [])
  /\ forall (t' : Obj) (w' : World) (calls : list call),
      TransformScript.input_fn (torch_save t) "application/python-pickle" w
      <> (inr (VObj t'), w', calls).
Proof.
  rewrite local_input_fn_raises. split; [reflexivity | ].
  intros t' w' calls. discriminate.
Qed.

(** C4, on the code as it stands.  Called with the content type
    'text/plain', [input_fn] of transform_script.py is not silent: for
    every request body and world it raises [SyntaxError] instead of
    returning [None]. *)
Theorem C4_local_input_fn_text_plain_raises_syntax_error
        (request_body : bytes) (w : World) :
  TransformScript.input_fn request_body "text/plain" w
  = (inl SyntaxError, w, [])
  /\ TransformScript.input_fn request_body "text/plain" w
     <> (inr VNone, w, []).
Proof.
  rewrite local_input_fn_raises. split; [reflexivity | discriminate].
Qed.

(** C8. The local-file [model_fn] never returns a model.  The text of
    transform_script.py leaves one parenthesis open, the one opened on
    line 8; the tokenizer rejects the script and the [def]; importing the
    script and calling [model_fn], directly or after the import, raise
    [SyntaxError] for every directory and world, with no framework call
    made (so no file is touched) and the world unchanged. *)
Theorem C8_local_model_fn_never_returns (model_dir : string) (w : World) :
  open_brackets 1 Source.transform_script = Some [("("%char, 8)]
  /\ import_script Source.transform_script w = (inl SyntaxError, w, [])
  /\ TransformScript.model_fn model_dir w = (inl SyntaxError, w, [])
  /\ TransformScript.serve_model_fn model_dir w = (inl SyntaxError, w, [])
  /\ forall (m : value Obj) (w' : World) (calls : list call),
      TransformScript.model_fn model_dir w <> (inr m, w', calls).
Proof.
  assert (Himp : import_script Source.transform_script w
                 = (inl SyntaxError, w, [])).
  { unfold import_script. rewrite local_script_rejected. reflexivity. }
  split; [ | split; [ | split; [ | split]]].
  - exact local_script_open_bracket.
  - exact Himp.
  - apply local_model_fn_raises.
  - unfold TransformScript.serve_model_fn, bind. rewrite Himp. reflexivity.
  - intros m w' calls. rewrite local_model_fn_raises. discriminate.
Qed.

(** *** transform_script_hub.py *)

Lemma hub_model_fn_body (model_dir : string) (w : World) :
  TransformScriptHub.model_fn model_dir w =
  torch_hub_load "NVIDIA/DeepLearningExamples:torchhub" "nvidia_ssd"
    [("model_math", "fp32"); ("map_location", "gpu")] w.
Proof.
  unfold TransformScriptHub.model_fn.
  rewrite (pydef_accepted _ _ hub_script_accepted).
  unfold torch_hub_load. apply perform_then_ret.
Qed.

Lemma hub_input_fn_body (request_body : bytes) (ct : string) (w : World) :
  TransformScriptHub.input_fn request_body ct w =
  torch_load (FromBuffer (BytesIO request_body)) w.
Proof.
  unfold TransformScriptHub.input_fn.
  rewrite (pydef_accepted _ _ hub_script_accepted).
  reflexivity.
Qed.

(** C5. [input_fn] of transform_script_hub.py ignores the content type:
    for every request body and any two content types it gives the same
    outcome, the one of [torch.load] on the body wrapped in a [BytesIO]. *)
Theorem C5_hub_input_fn_ignores_content_type
        (request_body : bytes) (ct1 ct2 : string) (w : World) :
  TransformScriptHub.input_fn request_body ct1 w
  = TransformScriptHub.input_fn request_body ct2 w
  /\ TransformScriptHub.input_fn request_body ct1 w
     = (fst (fw_torch_load (FromBuffer (BytesIO request_body)) w),
        snd (fw_torch_load (FromBuffer (BytesIO request_body)) w),
        [TorchLoad (FromBuffer (BytesIO request_body))]).
Proof.
  rewrite !hub_input_fn_body. split; [reflexivity | ].
  unfold torch_load. apply perform_outcome.
Qed.

(** C9. [model_fn] of transform_script_hub.py ignores its directory
    argument: for any two directories it makes the same single hub request
    (repository, architecture, precision and device placement all fixed)
    and has the same outcome. *)
Theorem C9_hub_model_fn_ignores_directory
        (model_dir1 model_dir2 : string) (w : World) :
  TransformScriptHub.model_fn model_dir1 w
  = TransformScriptHub.model_fn model_dir2 w
  /\ trace_of (TransformScriptHub.model_fn model_dir1 w)
     = [TorchHubLoad "NVIDIA/DeepLearningExamples:torchhub" "nvidia_ssd"
          [("model_math", "fp32"); ("map_location", "gpu")]]
  /\ trace_of (TransformScriptHub.model_fn model_dir2 w)
     = [TorchHubLoad "NVIDIA/DeepLearningExamples:torchhub" "nvidia_ssd"
          [("model_math", "fp32"); ("map_location", "gpu")]].
Proof.
  rewrite !hub_model_fn_body. unfold torch_hub_load.
  rewrite perform_outcome. repeat split; reflexivity.
Qed.

End HandlerFacts.

(** ** The two scripts side by side, and the scripts as imported *)

Section ScriptFacts.

Context {World Obj : Type} `{FW : Framework World Obj}.

(** X1. The two [input_fn] are never interchangeable as the scripts
    stand: whatever the request bodies, the content types and the world,
    the outcome of [input_fn] of transform_script.py (a [SyntaxError], no
    framework call) differs from that of [input_fn] of
    transform_script_hub.py (which always makes its [torch.load] call). *)
Theorem X1_input_fn_variants_never_agree
        (request_body1 request_body2 : bytes) (ct1 ct2 : string)
        (w : World) :
  TransformScript.input_fn request_body1 ct1 w
  <> TransformScriptHub.input_fn request_body2 ct2 w.
Proof.
  rewrite local_input_fn_raises, hub_input_fn_body.
  unfold torch_load. rewrite perform_outcome.
  intros H. discriminate H.
Qed.

(** X2. Reached the way a hosting runtime reaches it, by importing
    transform_script.py and then calling, [input_fn] never runs: for every
    request body, content type and world the import raises [SyntaxError]
    (the parenthesis left open on line 8), no framework call is made, the
    world is unchanged and no value is ever returned. *)
Theorem X2_local_input_fn_unreachable_through_import
        (request_body : bytes) (request_content_type : string) (w : World) :
  TransformScript.serve_input_fn request_body request_content_type w
  = (inl SyntaxError, w, [])
  /\ forall (v : value Obj) (w' : World) (calls : list call),
      TransformScript.serve_input_fn request_body request_content_type w
      <> (inr v, w', calls).
Proof.
  rewrite local_serve_input_fn_raises. split; [reflexivity | ].
  intros v w' calls. discriminate.
Qed.

(** X5. The two [model_fn] are never interchangeable as the scripts
    stand: whatever the directories and the world, the outcome of
    [model_fn] of transform_script.py (a [SyntaxError], no framework call)
    differs from that of [model_fn] of transform_script_hub.py (which
    always makes its hub request). *)
Theorem X5_model_fn_variants_never_agree
        (model_dir1 model_dir2 : string) (w : World) :
  TransformScript.model_fn model_dir1 w
  <> TransformScriptHub.model_fn model_dir2 w.
Proof.
  rewrite local_model_fn_raises, hub_model_fn_body.
  unfold torch_hub_load. rewrite perform_outcome.
  intros H. discriminate H.
Qed.

End ScriptFacts.

(** ** The tokenizer on small texts *)

Example bracket_in_string_not_counted :
  open_brackets 1 ["x = f('(')"] = Some [].
Proof. reflexivity. Qed.

Example bracket_in_comment_not_counted :
  open_brackets 1 ["x = f(1)  # ("; "y = 2"] = Some [].
Proof. reflexivity. Qed.

Example call_over_two_lines_accepted :
  open_brackets 1 ["x = f(1,"; "      2)"] = Some [].
Proof. reflexivity. Qed.

Example stray_closer_rejected :
  open_brackets 1 ["x = 1)"] = None.
Proof. reflexivity. Qed.

Example open_bracket_reported_with_its_line :
  open_brackets 1 ["x = 1"; "y = g(h(2)"; "z = 3"] = Some [("("%char, 2)].
Proof. reflexivity. Qed.

(** ** The handlers in the reference world *)

(** C1, on the code as it stands.  In a world where
    /opt/ml/model/nvidia_ssdpyt_fp32_190826.pt exists and deserializes to a
    model, the local-file [model_fn] called on /opt/ml/model raises
    [SyntaxError], without any framework call, instead of returning the
    model. *)
Theorem C1_local_model_fn_with_weights_file_raises :
  os_path_join (Framework := Ref.framework) "/opt/ml/model"
    "nvidia_ssdpyt_fp32_190826.pt"
  = "/opt/ml/model/nvidia_ssdpyt_fp32_190826.pt"
  /\ fw_torch_load (Framework := Ref.framework)
       (FromPath "/opt/ml/model/nvidia_ssdpyt_fp32_190826.pt") Ref.ready
     = (inr (VObj (list_byte_of_string "ssd300")), Ref.ready)
  /\ TransformScript.model_fn (FW := Ref.framework) "/opt/ml/model" Ref.ready
     = (inl SyntaxError, Ref.ready, []).
Proof.
  split; [reflexivity | split; [reflexivity | ]].
  apply local_model_fn_raises.
Qed.

(** C6, on the code as it stands.  In a world without the weights file,
    where [torch.load] on the path raises [FileNotFoundError], the
    local-file [model_fn] raises [SyntaxError] instead, before any
    framework call. *)
Theorem C6_local_model_fn_without_weights_file_raises_syntax_error :
  fw_torch_load (Framework := Ref.framework)
    (FromPath "/opt/ml/model/nvidia_ssdpyt_fp32_190826.pt") Ref.bare
  = (inl FileNotFoundError, Ref.bare)
  /\ TransformScript.model_fn (FW := Ref.framework) "/opt/ml/model" Ref.bare
     = (inl SyntaxError, Ref.bare, [])
  /\ SyntaxError <> FileNotFoundError.
Proof.
  split; [reflexivity | split; [ | discriminate]].
  apply local_model_fn_raises.
Qed.

(** The same two calls once line 8 is closed: the model, and
    [FileNotFoundError] from [torch.load]. *)
Example local_model_fn_repaired_runs :
  TransformScript.model_fn_in (FW := Ref.framework)
    (append_to_line 8 ")" Source.transform_script) "/opt/ml/model" Ref.ready
  = (inr (VObj (list_byte_of_string "ssd300")), Ref.ready,
     [TorchLoad (FromPath "/opt/ml/model/nvidia_ssdpyt_fp32_190826.pt")])
  /\ TransformScript.model_fn_in (FW := Ref.framework)
       (append_to_line 8 ")" Source.transform_script) "/opt/ml/model" Ref.bare
     = (inl FileNotFoundError, Ref.bare,
        [TorchLoad (FromPath "/opt/ml/model/nvidia_ssdpyt_fp32_190826.pt")]).
Proof. rewrite !local_model_fn_repaired. split; reflexivity. Qed.
